(** * Windows registration glue of the flutter_mcp_common plugin

    The two source files are
    - [windows/flutter_mcp_common_plugin.h]: the declaration of class
      [FlutterMcpCommonPlugin];
    - [windows/flutter_mcp_common_plugin_c_api.cpp]: the exported function
      [FlutterMcpCommonPluginCApiRegisterWithRegistrar].

    The exported function is a straight line of three calls into code that
    lives elsewhere (the embedder's registrar manager, and the plugin's own
    registration entry point).  It is embedded as a small program over those
    calls, run against an arbitrary host that answers them. *)

From stdpp Require Import base option list strings gmap.

Set Default Proof Using "Type".

(** ** Pointers

    Every value crossing the boundary is a pointer.  A pointer is either null
    or an address; its pointee type is kept as a phantom parameter so that an
    opaque handle and a typed registrar cannot be confused. *)

Inductive ptr (T : Type) : Type :=
| nullptr
| addr (a : positive).
Arguments nullptr {T}.
Arguments addr {T} a.

#[global] Instance ptr_eq_dec (T : Type) : EqDecision (ptr T).
Proof. solve_decision. Defined.

Definition is_null {T : Type} (p : ptr T) : bool :=
  match p with
  | nullptr => true
  | addr _ => false
  end.

(** Pointee tags.  None of these structs is defined by the plugin: the first
    is the embedder's opaque struct, the other two are wrapper classes of the
    embedder's client library. *)
Inductive FlutterDesktopPluginRegistrar : Type := .
Inductive PluginRegistrarManager : Type := .
Inductive PluginRegistrarWindows : Type := .

(** [typedef struct FlutterDesktopPluginRegistrar* FlutterDesktopPluginRegistrarRef] *)
Definition FlutterDesktopPluginRegistrarRef : Type :=
  ptr FlutterDesktopPluginRegistrar.

(** ** Calls leaving the shim

    [flutter::PluginRegistrarManager::GetInstance()],
    [manager->GetRegistrar<flutter::PluginRegistrarWindows>(ref)] and
    [FlutterMcpCommonPlugin::RegisterWithRegistrar(registrar)]. *)

Inductive call : Type :=
| GetInstance
| GetRegistrar (self : ptr PluginRegistrarManager)
               (registrar_ref : FlutterDesktopPluginRegistrarRef)
| RegisterWithRegistrar (registrar : ptr PluginRegistrarWindows).

#[global] Instance call_eq_dec : EqDecision call.
Proof. solve_decision. Defined.

(** What each call hands back to its caller. *)
Definition answer (c : call) : Type :=
  match c with
  | GetInstance => ptr PluginRegistrarManager
  | GetRegistrar _ _ => ptr PluginRegistrarWindows
  | RegisterWithRegistrar _ => unit
  end.

Definition is_register (c : call) : bool :=
  match c with
  | RegisterWithRegistrar _ => true
  | _ => false
  end.

(** ** Function bodies

    A body either returns, calls out and continues with the answer, leaves
    through an error exit of its own, or writes to state of its own
    (statics, globals, heap it allocated), ranged over by [Own]. *)

Inductive prog (Own R : Type) : Type :=
| Return (r : R)
| Call (c : call) (k : answer c -> prog Own R)
| Throw
| Update (f : Own -> Own) (k : prog Own R).
Arguments Return {Own R} r.
Arguments Call {Own R} c k.
Arguments Throw {Own R}.
Arguments Update {Own R} f k.

(** A body that is nothing but calls followed by a return. *)
Fixpoint forwards_only {Own R : Type} (p : prog Own R) : Prop :=
  match p with
  | Return _ => True
  | Call _ k => forall a, forwards_only (k a)
  | Throw => False
  | Update _ _ => False
  end.

(** How a run ends. *)
Inductive outcome (A : Type) : Type :=
| Done (a : A)             (* returned to the caller *)
| CalleeFailed (c : call)  (* [c] threw or aborted; nothing catches it *)
| Raised.                  (* the body's own error exit *)
Arguments Done {A} a.
Arguments CalleeFailed {A} c.
Arguments Raised {A}.

Definition crashed {A : Type} (o : outcome A) : bool :=
  match o with
  | Done _ => false
  | _ => true
  end.

(** A host answers the calls over its own world [W]; [None] is a throw or an
    abort inside the callee. *)
Definition handler (W : Type) : Type :=
  forall c : call, W -> option (answer c * W).

(** The calls made, in order, and the way the run ended. *)
Fixpoint run {W Own R : Type} (host : handler W) (p : prog Own R)
    (w : W) (s : Own) : list call * outcome (R * W * Own) :=
  match p with
  | Return r => ([], Done (r, w, s))
  | Call c k =>
      match host c w with
      | Some (a, w') =>
          let (t, o) := run host (k a) w' s in (c :: t, o)
      | None => ([c], CalleeFailed c)
      end
  | Throw => ([], Raised)
  | Update f k => run host k w (f s)
  end.

Definition trace {W Own R : Type} (host : handler W) (p : prog Own R)
    (w : W) (s : Own) : list call :=
  fst (run host p w s).

Definition result {W Own R : Type} (host : handler W) (p : prog Own R)
    (w : W) (s : Own) : outcome (R * W * Own) :=
  snd (run host p w s).

(** ** The exported C function

<<
void FlutterMcpCommonPluginCApiRegisterWithRegistrar(
    FlutterDesktopPluginRegistrarRef registrar) {
  flutter_mcp_common::FlutterMcpCommonPlugin::RegisterWithRegistrar(
      flutter::PluginRegistrarManager::GetInstance()
          ->GetRegistrar<flutter::PluginRegistrarWindows>(registrar));
}
>>
    The argument expression is evaluated before the outer call. *)

Definition FlutterMcpCommonPluginCApiRegisterWithRegistrar {Own : Type}
    (registrar : FlutterDesktopPluginRegistrarRef) : prog Own unit :=
  Call GetInstance (fun manager =>
  Call (GetRegistrar manager registrar) (fun typed_registrar =>
  Call (RegisterWithRegistrar typed_registrar) (fun _ =>
  Return tt))).

(** [n] invocations in a row with the same handle, stopping at the first one
    that does not return. *)
Fixpoint invoke_repeatedly {W Own : Type} (host : handler W) (n : nat)
    (registrar : FlutterDesktopPluginRegistrarRef) (w : W) (s : Own)
    : outcome (W * Own) :=
  match n with
  | O => Done (w, s)
  | S n' =>
      match result host (FlutterMcpCommonPluginCApiRegisterWithRegistrar registrar) w s with
      | Done (_, w', s') => invoke_repeatedly host n' registrar w' s'
      | CalleeFailed c => CalleeFailed c
      | Raised => Raised
      end
  end.

(** The registrars handed to [RegisterWithRegistrar] along a trace. *)
Definition registered_with (t : list call) : list (ptr PluginRegistrarWindows) :=
  omap (fun c => match c with
                 | RegisterWithRegistrar r => Some r
                 | _ => None
                 end) t.

(** What the singleton manager makes of a handle in world [w]: the manager
    pointer, and the typed registrar it resolves the handle to.  [None] at
    either level is a failure inside the manager. *)
Definition resolve {W : Type} (host : handler W)
    (registrar : FlutterDesktopPluginRegistrarRef) (w : W)
    : option (ptr PluginRegistrarManager * option (ptr PluginRegistrarWindows)) :=
  match host GetInstance w with
  | None => None
  | Some (manager, w1) =>
      Some (manager,
            match host (GetRegistrar manager registrar) w1 with
            | None => None
            | Some (typed_registrar, _) => Some typed_registrar
            end)
  end.

(** A host whose world sits next to state [F] that no callee touches. *)
Definition with_frame {W F : Type} (host : handler W) : handler (W * F) :=
  fun c wf =>
    match host c (fst wf) with
    | Some (a, w') => Some (a, (w', snd wf))
    | None => None
    end.

Definition outcome_map {A B : Type} (f : A -> B) (o : outcome A) : outcome B :=
  match o with
  | Done a => Done (f a)
  | CalleeFailed c => CalleeFailed c
  | Raised => Raised
  end.

(** The number of writes to its own state a body performs along a run,
    whether the run returns or not. *)
Fixpoint own_writes {W Own R : Type} (host : handler W) (p : prog Own R)
    (w : W) : nat :=
  match p with
  | Return _ => O
  | Call c k =>
      match host c w with
      | Some (a, w') => own_writes host (k a) w'
      | None => O
      end
  | Throw => O
  | Update _ k => S (own_writes host k w)
  end.

(** Where a run stops, whether it returns or not: the world as the last call
    that returned left it, and the body's own state. *)
Fixpoint stop_state {W Own R : Type} (host : handler W) (p : prog Own R)
    (w : W) (s : Own) : W * Own :=
  match p with
  | Return _ => (w, s)
  | Call c k =>
      match host c w with
      | Some (a, w') => stop_state host (k a) w' s
      | None => (w, s)
      end
  | Throw => (w, s)
  | Update f k => stop_state host k w (f s)
  end.

(** ** The class declaration

    [flutter_mcp_common_plugin.h] only declares; what can be said about the
    class is read off the list of its members. *)

Inductive member_kind : Type :=
| StaticFunction
| DefaultConstructor
| Destructor
| CopyConstructor
| CopyAssignment
| MoveConstructor
| MoveAssignment
| MemberFunction
| DataMember.

#[global] Instance member_kind_eq_dec : EqDecision member_kind.
Proof. solve_decision. Defined.

(** [;], [= default], [= delete] *)
Inductive definition_form : Type :=
| Declared
| Defaulted
| Deleted.

#[global] Instance definition_form_eq_dec : EqDecision definition_form.
Proof. solve_decision. Defined.

Inductive access : Type :=
| Public
| Protected
| Private.

#[global] Instance access_eq_dec : EqDecision access.
Proof. solve_decision. Defined.

Record member : Type := {
  m_access : access;
  m_kind : member_kind;
  m_name : string;
  m_virtual : bool;
  m_form : definition_form
}.

Record class_decl : Type := {
  c_name : string;
  c_bases : list string;
  c_members : list member
}.

(**
<<
class FlutterMcpCommonPlugin : public flutter::Plugin {
 public:
  static void RegisterWithRegistrar(flutter::PluginRegistrarWindows *registrar);
  FlutterMcpCommonPlugin();
  virtual ~FlutterMcpCommonPlugin();
  // Disallow copy and assign.
  FlutterMcpCommonPlugin(const FlutterMcpCommonPlugin&) = delete;
  FlutterMcpCommonPlugin& operator=(const FlutterMcpCommonPlugin&) = delete;
  // Called when a method is called on this plugin's channel from Dart.
  void HandleMethodCall(const flutter::MethodCall<...> &method_call,
                        std::unique_ptr<flutter::MethodResult<...>> result);
};
>> *)
Definition FlutterMcpCommonPlugin_class : class_decl := {|
  c_name := "FlutterMcpCommonPlugin";
  c_bases := ["flutter::Plugin"];
  c_members := [
    {| m_access := Public; m_kind := StaticFunction;
       m_name := "RegisterWithRegistrar"; m_virtual := false; m_form := Declared |};
    {| m_access := Public; m_kind := DefaultConstructor;
       m_name := "FlutterMcpCommonPlugin"; m_virtual := false; m_form := Declared |};
    {| m_access := Public; m_kind := Destructor;
       m_name := "~FlutterMcpCommonPlugin"; m_virtual := true; m_form := Declared |};
    {| m_access := Public; m_kind := CopyConstructor;
       m_name := "FlutterMcpCommonPlugin"; m_virtual := false; m_form := Deleted |};
    {| m_access := Public; m_kind := CopyAssignment;
       m_name := "operator="; m_virtual := false; m_form := Deleted |};
    {| m_access := Public; m_kind := MemberFunction;
       m_name := "HandleMethodCall"; m_virtual := false; m_form := Declared |}
  ]
|}.

Definition lookup_member (k : member_kind) (c : class_decl) : option member :=
  List.find (fun m => bool_decide (m_kind m = k)) (c_members c).

Definition user_declared (k : member_kind) (c : class_decl) : bool :=
  match lookup_member k c with
  | Some _ => true
  | None => false
  end.

(** Naming a deleted function is ill-formed, whatever its access; naming a
    non-public one from outside the class is ill-formed too. *)
Definition usable (m : member) : bool :=
  negb (bool_decide (m_form m = Deleted)) && bool_decide (m_access m = Public).

(** Does the compiler accept a copy operation ([k] is [CopyConstructor] or
    [CopyAssignment]) on an object of class [c]?  A user-declared operation
    decides by itself.  Otherwise the operation is implicitly declared, and
    defined as deleted when the class declares a move operation. *)
Definition copy_accepted (k : member_kind) (c : class_decl) : bool :=
  match lookup_member k c with
  | Some m => usable m
  | None => negb (user_declared MoveConstructor c || user_declared MoveAssignment c)
  end.

Definition copy_constructible (c : class_decl) : bool :=
  copy_accepted CopyConstructor c.

Definition copy_assignable (c : class_decl) : bool :=
  copy_accepted CopyAssignment c.

Definition data_members (c : class_decl) : list member :=
  List.filter (fun m => bool_decide (m_kind m = DataMember)) (c_members c).

(** The state of an instance: one slot per data member. *)
Fixpoint slots (fields : list member) : Type :=
  match fields with
  | [] => unit
  | _ :: fields' => (Z * slots fields')%type
  end.

Definition instance_state (c : class_decl) : Type := slots (data_members c).

Definition FlutterMcpCommonPlugin : Type :=
  instance_state FlutterMcpCommonPlugin_class.

(** ** The host's plugin registry and the registration entry point *)

(** Who answers a method call arriving on a channel. *)
Inductive method_handler : Type :=
| HandleMethodCall              (* [FlutterMcpCommonPlugin::HandleMethodCall] *)
| foreign_handler (id : positive).

#[global] Instance method_handler_eq_dec : EqDecision method_handler.
Proof. solve_decision. Defined.

(** Modelled from the spec: the host's plugin registry, whose classes are the
    embedder's and not part of these sources.  Per typed registrar it keeps
    the handler each method channel dispatches to and the plugin instances
    whose lifetime the registrar owns. *)
Record registrar_entry : Type := {
  handlers : gmap string method_handler;
  plugins : list FlutterMcpCommonPlugin
}.

Definition empty_entry : registrar_entry :=
  {| handlers := ∅; plugins := [] |}.

(** The plugin's platform channel. *)
Definition channel_name : string := "flutter_mcp_common".

(** The handler a call into [channel] of registrar [a] is dispatched to. *)
Definition dispatch (reg : gmap positive registrar_entry) (a : positive)
    (channel : string) : option method_handler :=
  match reg !! a with
  | Some e => handlers e !! channel
  | None => None
  end.

(** Modelled from the spec: the body of
    [FlutterMcpCommonPlugin::RegisterWithRegistrar], which is declared in the
    header and defined in a file that is not among the sources.  Given a
    non-null registrar it neither throws nor aborts, hands a plugin instance
    to the registrar, and leaves the registry dispatching the plugin's method
    channel to the plugin's handler; it returns nothing.  The spec promises
    nothing for a null registrar: the model takes the worst case there. *)
Definition RegisterWithRegistrar_body
    (registrar : ptr PluginRegistrarWindows)
    (reg : gmap positive registrar_entry) : option (gmap positive registrar_entry) :=
  match registrar with
  | nullptr => None
  | addr a =>
      let e := default empty_entry (reg !! a) in
      Some (<[a := {| handlers := <[channel_name := HandleMethodCall]> (handlers e);
                      plugins := (tt : FlutterMcpCommonPlugin) :: plugins e |}]> reg)
  end.

(** The two operations of the embedder's registrar manager the shim relies
    on, over a manager state [M].  They are not part of these sources and are
    taken as given. *)
Record manager_ops (M : Type) : Type := {
  get_instance : M -> option (ptr PluginRegistrarManager * M);
  get_registrar :
    ptr PluginRegistrarManager -> FlutterDesktopPluginRegistrarRef ->
    M -> option (ptr PluginRegistrarWindows * M)
}.
Arguments get_instance {M} _ _.
Arguments get_registrar {M} _ _ _ _.

(** The whole system the shim runs in: a registrar manager, and the
    registration entry point acting on the plugin registry. *)
Definition system {M : Type} (ops : manager_ops M)
    : handler (M * gmap positive registrar_entry) :=
  fun c =>
    match c as c0 return M * gmap positive registrar_entry ->
                         option (answer c0 * (M * gmap positive registrar_entry)) with
    | GetInstance => fun w =>
        match get_instance ops (fst w) with
        | Some (manager, m') => Some (manager, (m', snd w))
        | None => None
        end
    | GetRegistrar self registrar_ref => fun w =>
        match get_registrar ops self registrar_ref (fst w) with
        | Some (typed_registrar, m') => Some (typed_registrar, (m', snd w))
        | None => None
        end
    | RegisterWithRegistrar registrar => fun w =>
        match RegisterWithRegistrar_body registrar (snd w) with
        | Some reg' => Some (tt, (fst w, reg'))
        | None => None
        end
    end.

(** The manager resolves [registrar] in state [m] to the non-null typed
    registrar at address [a], ending in state [m']. *)
Definition resolves_to {M : Type} (ops : manager_ops M)
    (registrar : FlutterDesktopPluginRegistrarRef) (m : M) (a : positive) (m' : M)
    : Prop :=
  exists manager m1,
    get_instance ops m = Some (manager, m1) /\
    get_registrar ops manager registrar m1 = Some (addr a, m').

(** ** A sample host

    One registrar manager to run the statements on: a single manager object
    that keeps one typed registrar per handle, made at the first lookup of that
    handle, and that fails on a null handle or a null manager. *)

Record sample_manager : Type := {
  registrars_ : gmap positive positive;
  next_address : positive
}.

Definition sample_empty : sample_manager :=
  {| registrars_ := ∅; next_address := 1%positive |}.

Definition sample_get_instance (m : sample_manager)
    : option (ptr PluginRegistrarManager * sample_manager) :=
  Some (addr 1%positive, m).

Definition sample_get_registrar (self : ptr PluginRegistrarManager)
    (registrar_ref : FlutterDesktopPluginRegistrarRef) (m : sample_manager)
    : option (ptr PluginRegistrarWindows * sample_manager) :=
  match self, registrar_ref with
  | addr _, addr h =>
      match registrars_ m !! h with
      | Some r => Some (addr r, m)
      | None =>
          Some (addr (next_address m),
                {| registrars_ := <[h := next_address m]> (registrars_ m);
                   next_address := Pos.succ (next_address m) |})
      end
  | _, _ => None
  end.

Definition sample_ops : manager_ops sample_manager :=
  {| get_instance := sample_get_instance;
     get_registrar := sample_get_registrar |}.

Definition sample_host : handler (sample_manager * gmap positive registrar_entry) :=
  system sample_ops.

Definition sample_world : sample_manager * gmap positive registrar_entry :=
  (sample_empty, ∅).

(** The sample manager once handle 7 has been looked up. *)
Definition sample_registered : sample_manager :=
  {| registrars_ := {[7%positive := 1%positive]}; next_address := 2%positive |}.

(** A variant of the shim that checks its argument first; the shim does not. *)
Definition checked_shim {Own : Type}
    (registrar : FlutterDesktopPluginRegistrarRef) : prog Own unit :=
  if is_null registrar then Throw
  else FlutterMcpCommonPluginCApiRegisterWithRegistrar registrar.

(** A variant that counts its invocations in a variable of its own before it
    checks and forwards; the shim keeps no such variable. *)
Definition counting_shim (registrar : FlutterDesktopPluginRegistrarRef)
    : prog Z unit :=
  Update Z.succ (checked_shim registrar).

(** The class without its two deleted members. *)
Definition copyable_variant : class_decl :=
  {| c_name := c_name FlutterMcpCommonPlugin_class;
     c_bases := c_bases FlutterMcpCommonPlugin_class;
     c_members := List.filter (fun m => negb (bool_decide (m_form m = Deleted)))
                              (c_members FlutterMcpCommonPlugin_class) |}.

(** * Properties *)

(** ** Bodies that only forward *)

Lemma shim_forwards_only {Own : Type} (registrar : FlutterDesktopPluginRegistrarRef) :
  forwards_only (@FlutterMcpCommonPluginCApiRegisterWithRegistrar Own registrar).
Proof. intros manager typed_registrar u. exact I. Qed.

Lemma trace_cons {W Own R : Type} (host : handler W) c (k : answer c -> prog Own R)
    w s a w' :
  host c w = Some (a, w') ->
  trace host (Call c k) w s = c :: trace host (k a) w' s /\
  result host (Call c k) w s = result host (k a) w' s.
Proof.
  intros Hc. unfold trace, result. cbn [run]. rewrite Hc.
  destruct (run host (k a) w' s) as [t o]. split; reflexivity.
Qed.

Lemma trace_fail {W Own R : Type} (host : handler W) c (k : answer c -> prog Own R) w s :
  host c w = None ->
  trace host (Call c k) w s = [c] /\
  result host (Call c k) w s = CalleeFailed c.
Proof.
  intros Hc. unfold trace, result. cbn [run]. rewrite Hc. split; reflexivity.
Qed.

(** A forwarding body never leaves through an error exit of its own, fails
    only with the failure of the last call it made, and returns with its own
    state as it found it. *)
Lemma forwards_only_result {W Own R : Type} (host : handler W) (p : prog Own R) :
  forwards_only p ->
  forall w s,
    match result host p w s with
    | Done (_, _, s') => s' = s
    | CalleeFailed c =>
        last (trace host p w s) = Some c /\ exists w', host c w' = None
    | Raised => False
    end.
Proof.
  induction p as [r | c k IH | | f k IH]; intros Hp w s.
  - reflexivity.
  - destruct (host c w) as [[a w'] |] eqn:Hc.
    + destruct (trace_cons host c k w s a w' Hc) as [Ht Hr].
      rewrite Hr, Ht. specialize (IH a (Hp a) w' s).
      destruct (result host (k a) w' s) as [[[r1 w1] s1] | c1 |]; try exact IH.
      destruct IH as [Hl Hn]. split; [| exact Hn].
      destruct (trace host (k a) w' s) as [| c2 t2]; [discriminate Hl |].
      exact Hl.
    + destruct (trace_fail host c k w s Hc) as [Ht Hr].
      rewrite Hr, Ht. split; [reflexivity |]. exists w. exact Hc.
  - destruct Hp.
  - destruct Hp.
Qed.

(** State that no callee touches is left alone by every body. *)
Lemma run_with_frame {W F Own R : Type} (host : handler W) (p : prog Own R) :
  forall w (f : F) s,
    run (with_frame host) p (w, f) s =
    (trace host p w s,
     outcome_map (fun x => (x.1.1, (x.1.2, f), x.2)) (result host p w s)).
Proof.
  induction p as [r | c k IH | | g k IH]; intros w f s.
  - reflexivity.
  - unfold trace, result. cbn [run]. unfold with_frame at 1. cbn [fst snd].
    destruct (host c w) as [[a w'] |]; [| reflexivity].
    rewrite IH. unfold trace, result.
    destruct (run host (k a) w' s) as [t o]. reflexivity.
  - reflexivity.
  - unfold trace, result. cbn [run]. rewrite IH. reflexivity.
Qed.

(** The shim, run: one case per call that can fail. *)
Lemma run_shim {W Own : Type} (host : handler W)
    (registrar : FlutterDesktopPluginRegistrarRef) (w : W) (s : Own) :
  run host (FlutterMcpCommonPluginCApiRegisterWithRegistrar registrar) w s =
  match host GetInstance w with
  | None => ([GetInstance], CalleeFailed GetInstance)
  | Some (manager, w1) =>
      match host (GetRegistrar manager registrar) w1 with
      | None => ([GetInstance; GetRegistrar manager registrar],
                 CalleeFailed (GetRegistrar manager registrar))
      | Some (r, w2) =>
          match host (RegisterWithRegistrar r) w2 with
          | None => ([GetInstance; GetRegistrar manager registrar; RegisterWithRegistrar r],
                     CalleeFailed (RegisterWithRegistrar r))
          | Some (_, w3) =>
              ([GetInstance; GetRegistrar manager registrar; RegisterWithRegistrar r],
               Done (tt, w3, s))
          end
      end
  end.
Proof.
  unfold FlutterMcpCommonPluginCApiRegisterWithRegistrar. cbn [run].
  destruct (host GetInstance w) as [[manager w1] |]; [| reflexivity].
  destruct (host (GetRegistrar manager registrar) w1) as [[r w2] |]; [| reflexivity].
  destruct (host (RegisterWithRegistrar r) w2) as [[u w3] |]; reflexivity.
Qed.

(** The calls of the shim, read off the answers of the host. *)
Lemma trace_shim {W Own : Type} (host : handler W)
    (registrar : FlutterDesktopPluginRegistrarRef) (w : W) (s : Own) :
  trace host (FlutterMcpCommonPluginCApiRegisterWithRegistrar registrar) w s =
  match host GetInstance w with
  | None => [GetInstance]
  | Some (manager, w1) =>
      match host (GetRegistrar manager registrar) w1 with
      | None => [GetInstance; GetRegistrar manager registrar]
      | Some (r, _) =>
          [GetInstance; GetRegistrar manager registrar; RegisterWithRegistrar r]
      end
  end.
Proof.
  unfold trace. rewrite run_shim.
  destruct (host GetInstance w) as [[manager w1] |]; [| reflexivity].
  destruct (host (GetRegistrar manager registrar) w1) as [[r w2] |]; [| reflexivity].
  destruct (host (RegisterWithRegistrar r) w2) as [[u w3] |]; reflexivity.
Qed.

(** A forwarding body writes nothing of its own and stops with its own state
    as it found it, on every run. *)
Lemma forwards_only_own {W Own R : Type} (host : handler W) (p : prog Own R) :
  forwards_only p ->
  forall w s, own_writes host p w = O /\ (stop_state host p w s).2 = s.
Proof.
  induction p as [r | c k IH | | f k IH]; intros Hp w s; cbn [own_writes stop_state].
  - split; reflexivity.
  - destruct (host c w) as [[a w'] |]; [| split; reflexivity].
    apply IH, Hp.
  - destruct Hp.
  - destruct Hp.
Qed.

(** The callees of a host with a frame leave the frame alone wherever the run
    stops. *)
Lemma stop_state_with_frame {W F Own R : Type} (host : handler W) (p : prog Own R) :
  forall w (f : F) s,
    stop_state (with_frame host) p (w, f) s =
    (((stop_state host p w s).1, f), (stop_state host p w s).2).
Proof.
  induction p as [r | c k IH | | g k IH]; intros w f s; cbn [stop_state].
  - reflexivity.
  - unfold with_frame at 1. cbn [fst snd].
    destruct (host c w) as [[a w'] |]; [apply IH | reflexivity].
  - reflexivity.
  - apply IH.
Qed.

Lemma own_writes_with_frame {W F Own R : Type} (host : handler W) (p : prog Own R) :
  forall w (f : F), own_writes (with_frame host) p (w, f) = own_writes host p w.
Proof.
  induction p as [r | c k IH | | g k IH]; intros w f; cbn [own_writes].
  - reflexivity.
  - unfold with_frame at 1. cbn [fst snd].
    destruct (host c w) as [[a w'] |]; [apply IH | reflexivity].
  - reflexivity.
  - f_equal. apply IH.
Qed.

(** ** The shim against an arbitrary host *)

(** C1.  When the singleton manager resolves the handle (the handle is valid),
    the shim calls [FlutterMcpCommonPlugin::RegisterWithRegistrar] exactly
    once, and the argument of that call is the typed registrar the manager
    returned for that very handle. *)
Theorem shim_registers_exactly_once {W Own : Type} (host : handler W)
    (registrar : FlutterDesktopPluginRegistrarRef) (w : W) (s : Own)
    (manager : ptr PluginRegistrarManager) (w1 : W)
    (typed_registrar : ptr PluginRegistrarWindows) (w2 : W) :
  host GetInstance w = Some (manager, w1) ->
  host (GetRegistrar manager registrar) w1 = Some (typed_registrar, w2) ->
  registered_with
    (trace host (FlutterMcpCommonPluginCApiRegisterWithRegistrar registrar) w s)
  = [typed_registrar] /\
  List.filter is_register
    (trace host (FlutterMcpCommonPluginCApiRegisterWithRegistrar registrar) w s)
  = [RegisterWithRegistrar typed_registrar].
Proof.
  intros Hm Hr. unfold trace. rewrite run_shim, Hm, Hr.
  destruct (host (RegisterWithRegistrar typed_registrar) w2) as [[u w3] |];
    split; reflexivity.
Qed.

Lemma shim_registers_exactly_once_witness :
  registered_with
    (trace sample_host
       (FlutterMcpCommonPluginCApiRegisterWithRegistrar (addr 7%positive))
       sample_world tt)
  = [addr 1%positive].
Proof.
  refine (proj1 (shim_registers_exactly_once sample_host (addr 7%positive)
                   sample_world tt (addr 1%positive) sample_world (addr 1%positive)
                   (sample_registered, ∅) _ _)).
  - reflexivity.
  - vm_compute. reflexivity.
Defined.

(** C8.  The exported function takes one opaque registrar reference and
    returns nothing.  When its three callees return, its run is the manager
    lookup, the resolution of the handle and the registration, in that order;
    the world it leaves is the one the registration left, and its result is
    the unit value. *)
Theorem shim_effect_is_registration {W Own : Type} (host : handler W)
    (registrar : FlutterDesktopPluginRegistrarRef) (w : W) (s : Own)
    (manager : ptr PluginRegistrarManager) (w1 : W)
    (typed_registrar : ptr PluginRegistrarWindows) (w2 w3 : W) :
  host GetInstance w = Some (manager, w1) ->
  host (GetRegistrar manager registrar) w1 = Some (typed_registrar, w2) ->
  host (RegisterWithRegistrar typed_registrar) w2 = Some (tt, w3) ->
  run host (FlutterMcpCommonPluginCApiRegisterWithRegistrar registrar) w s =
  ([GetInstance; GetRegistrar manager registrar; RegisterWithRegistrar typed_registrar],
   Done (tt, w3, s)).
Proof.
  intros Hm Hr Hreg. rewrite run_shim, Hm, Hr, Hreg. reflexivity.
Qed.

Lemma shim_effect_is_registration_witness :
  exists w3,
    run sample_host
      (FlutterMcpCommonPluginCApiRegisterWithRegistrar (addr 7%positive))
      sample_world tt =
    ([GetInstance; GetRegistrar (addr 1%positive) (addr 7%positive);
      RegisterWithRegistrar (addr 1%positive)],
     Done (tt, w3, tt)).
Proof.
  eexists.
  refine (shim_effect_is_registration sample_host (addr 7%positive)
            sample_world tt (addr 1%positive) sample_world (addr 1%positive)
            (sample_registered, ∅) _ _ _ _).
  - reflexivity.
  - vm_compute. reflexivity.
  - reflexivity.
Defined.

(** C3.  For every handle, null or not, and every world, fresh or already
    registered in: the shim never leaves through an error exit of its own; a
    run that fails ends with the failure of the callee it called last; and
    the handle reaches the manager's lookup as it came in, unchecked.  The
    result type is [unit], so there is no error value to return. *)
Theorem shim_signals_no_error {W Own : Type} (host : handler W)
    (registrar : FlutterDesktopPluginRegistrarRef) (w : W) (s : Own) :
  let t := trace host (FlutterMcpCommonPluginCApiRegisterWithRegistrar registrar) w s in
  let o := result host (FlutterMcpCommonPluginCApiRegisterWithRegistrar registrar) w s in
  o <> Raised /\
  (forall c, o = CalleeFailed c -> last t = Some c /\ exists w', host c w' = None) /\
  (forall manager w1, host GetInstance w = Some (manager, w1) ->
     t !! 1%nat = Some (GetRegistrar manager registrar)) /\
  (crashed o = false -> length t = 3%nat).
Proof.
  cbn zeta.
  pose proof (forwards_only_result host _ (shim_forwards_only (Own := Own) registrar) w s)
    as Hfw.
  split; [| split; [| split]].
  - intros Hr. rewrite Hr in Hfw. exact Hfw.
  - intros c Hc. rewrite Hc in Hfw. exact Hfw.
  - intros manager w1 Hm. unfold trace. rewrite run_shim, Hm.
    destruct (host (GetRegistrar manager registrar) w1) as [[r w2] |]; [| reflexivity].
    destruct (host (RegisterWithRegistrar r) w2) as [[u w3] |]; reflexivity.
  - unfold trace, result. rewrite run_shim.
    destruct (host GetInstance w) as [[manager w1] |]; [| discriminate].
    destruct (host (GetRegistrar manager registrar) w1) as [[r w2] |]; [| discriminate].
    destruct (host (RegisterWithRegistrar r) w2) as [[u w3] |]; [reflexivity | discriminate].
Qed.

(** C9.  Two invocations with equal handles, in worlds (of possibly different
    hosts) in which the singleton manager answers alike for that handle, make
    the same calls and hand equal typed registrars to
    [RegisterWithRegistrar]: nothing but the handle and the manager's answers
    enters the shim's behaviour. *)
Theorem shim_deterministic {W1 W2 Own1 Own2 : Type}
    (host1 : handler W1) (host2 : handler W2)
    (registrar1 registrar2 : FlutterDesktopPluginRegistrarRef)
    (w1 : W1) (w2 : W2) (s1 : Own1) (s2 : Own2) :
  registrar1 = registrar2 ->
  resolve host1 registrar1 w1 = resolve host2 registrar2 w2 ->
  trace host1 (FlutterMcpCommonPluginCApiRegisterWithRegistrar registrar1) w1 s1 =
  trace host2 (FlutterMcpCommonPluginCApiRegisterWithRegistrar registrar2) w2 s2 /\
  registered_with
    (trace host1 (FlutterMcpCommonPluginCApiRegisterWithRegistrar registrar1) w1 s1) =
  registered_with
    (trace host2 (FlutterMcpCommonPluginCApiRegisterWithRegistrar registrar2) w2 s2).
Proof.
  intros <- Hres.
  assert (trace host1 (FlutterMcpCommonPluginCApiRegisterWithRegistrar registrar1) w1 s1 =
          trace host2 (FlutterMcpCommonPluginCApiRegisterWithRegistrar registrar1) w2 s2)
    as Ht.
  { unfold trace. rewrite !run_shim. unfold resolve in Hres.
    destruct (host1 GetInstance w1) as [[m1 w1'] |], (host2 GetInstance w2) as [[m2 w2'] |];
      try discriminate Hres; [| reflexivity].
    injection Hres as -> Hres.
    destruct (host1 (GetRegistrar m2 registrar1) w1') as [[r1 w1''] |],
             (host2 (GetRegistrar m2 registrar1) w2') as [[r2 w2''] |];
      try discriminate Hres; [| reflexivity].
    injection Hres as ->.
    destruct (host1 (RegisterWithRegistrar r2) w1'') as [[u1 v1] |],
             (host2 (RegisterWithRegistrar r2) w2'') as [[u2 v2] |]; reflexivity. }
  split; [exact Ht | rewrite Ht; reflexivity].
Qed.

Lemma shim_deterministic_witness :
  trace sample_host
    (FlutterMcpCommonPluginCApiRegisterWithRegistrar (addr 7%positive)) sample_world tt =
  trace sample_host
    (FlutterMcpCommonPluginCApiRegisterWithRegistrar (addr 7%positive))
    (sample_empty, {[5%positive := empty_entry]}) 3%Z.
Proof.
  refine (proj1 (shim_deterministic sample_host sample_host
                   (addr 7%positive) (addr 7%positive)
                   sample_world (sample_empty, {[5%positive := empty_entry]})
                   tt 3%Z _ _)).
  - reflexivity.
  - vm_compute. reflexivity.
Defined.

(** C10.  The shim has no effect of its own, on any run, returning or not.
    It performs no write to state of its own and takes no error exit of its
    own.  The calls it makes are the manager lookup, the resolution of its
    handle and, when that returns a registrar, the single registration
    forwarded to it: nothing else.  Where the run stops, state that the
    callees do not touch and the shim's own state are as they were before the
    call; and a run next to such state makes the same calls and ends the same
    way as a run without it. *)
Theorem shim_frame {W F Own : Type} (host : handler W)
    (registrar : FlutterDesktopPluginRegistrarRef) (w : W) (f : F) (s : Own) :
  run (with_frame host)
      (FlutterMcpCommonPluginCApiRegisterWithRegistrar registrar) (w, f) s =
  (trace host (FlutterMcpCommonPluginCApiRegisterWithRegistrar registrar) w s,
   outcome_map (fun x => (x.1.1, (x.1.2, f), s))
     (result host (FlutterMcpCommonPluginCApiRegisterWithRegistrar registrar) w s)) /\
  own_writes (with_frame host)
    (@FlutterMcpCommonPluginCApiRegisterWithRegistrar Own registrar) (w, f) = O /\
  result (with_frame host)
    (FlutterMcpCommonPluginCApiRegisterWithRegistrar registrar) (w, f) s <> Raised /\
  trace (with_frame host)
    (FlutterMcpCommonPluginCApiRegisterWithRegistrar registrar) (w, f) s =
  match resolve host registrar w with
  | None => [GetInstance]
  | Some (manager, None) => [GetInstance; GetRegistrar manager registrar]
  | Some (manager, Some typed_registrar) =>
      [GetInstance; GetRegistrar manager registrar;
       RegisterWithRegistrar typed_registrar]
  end /\
  stop_state (with_frame host)
    (FlutterMcpCommonPluginCApiRegisterWithRegistrar registrar) (w, f) s =
  (((stop_state host
       (FlutterMcpCommonPluginCApiRegisterWithRegistrar registrar) w s).1, f), s).
Proof.
  pose proof (forwards_only_result host _ (shim_forwards_only (Own := Own) registrar) w s)
    as Hfw.
  pose proof (forwards_only_own host _ (shim_forwards_only (Own := Own) registrar) w s)
    as [Hwr Hst].
  assert (run (with_frame host)
            (FlutterMcpCommonPluginCApiRegisterWithRegistrar registrar) (w, f) s =
          (trace host (FlutterMcpCommonPluginCApiRegisterWithRegistrar registrar) w s,
           outcome_map (fun x => (x.1.1, (x.1.2, f), s))
             (result host (FlutterMcpCommonPluginCApiRegisterWithRegistrar registrar) w s)))
    as Hrun.
  { rewrite run_with_frame. f_equal.
    destruct (result host (FlutterMcpCommonPluginCApiRegisterWithRegistrar registrar) w s)
      as [[[r w'] s'] | c |]; [| reflexivity | reflexivity].
    cbn in Hfw |- *. rewrite Hfw. reflexivity. }
  split; [exact Hrun |].
  split; [rewrite own_writes_with_frame; exact Hwr |].
  split.
  { unfold result. rewrite Hrun. cbn [snd].
    destruct (result host (FlutterMcpCommonPluginCApiRegisterWithRegistrar registrar) w s)
      as [[[r w'] s'] | c |]; [discriminate | discriminate | destruct Hfw]. }
  split.
  { unfold trace at 1. rewrite Hrun. cbn [fst]. rewrite trace_shim. unfold resolve.
    destruct (host GetInstance w) as [[manager w1] |]; [| reflexivity].
    destruct (host (GetRegistrar manager registrar) w1) as [[r w2] |]; reflexivity. }
  rewrite stop_state_with_frame, Hst. reflexivity.
Qed.

(** The counting variant does write: once on every run, even on a null handle,
    where it stops with its counter changed. *)
Example counting_shim_writes :
  own_writes sample_host (counting_shim nullptr) sample_world = 1%nat /\
  stop_state sample_host (counting_shim nullptr) sample_world 0%Z = (sample_world, 1%Z).
Proof. split; reflexivity. Qed.

(** The checked variant does leave through an error exit of its own, and
    never shows a null handle to the manager. *)
Example checked_shim_raises :
  run sample_host (checked_shim nullptr) sample_world tt = ([], Raised).
Proof. reflexivity. Qed.

(** ** The shim in the whole system *)

Lemma RegisterWithRegistrar_body_addr (a : positive)
    (reg : gmap positive registrar_entry) :
  exists reg',
    RegisterWithRegistrar_body (addr a) reg = Some reg' /\
    dispatch reg' a channel_name = Some HandleMethodCall.
Proof.
  eexists. split; [reflexivity |].
  unfold dispatch. rewrite lookup_insert_eq. cbn [handlers].
  apply lookup_insert_eq.
Qed.

Lemma system_run_resolved {M Own : Type} (ops : manager_ops M)
    (registrar : FlutterDesktopPluginRegistrarRef) (m : M)
    (reg : gmap positive registrar_entry) (s : Own) (a : positive) (m' : M) :
  resolves_to ops registrar m a m' ->
  exists manager reg',
    run (system ops) (FlutterMcpCommonPluginCApiRegisterWithRegistrar registrar)
        (m, reg) s =
    ([GetInstance; GetRegistrar manager registrar; RegisterWithRegistrar (addr a)],
     Done (tt, (m', reg'), s)) /\
    dispatch reg' a channel_name = Some HandleMethodCall.
Proof.
  intros (manager & m1 & Hm & Hr).
  destruct (RegisterWithRegistrar_body_addr a reg) as (reg' & Hreg & Hd).
  exists manager, reg'. split; [| exact Hd].
  rewrite run_shim. cbn [system fst snd]. rewrite Hm.
  cbn [system fst snd]. rewrite Hr.
  cbn [system fst snd]. rewrite Hreg. reflexivity.
Qed.

(** C2.  Invoking the shim on a handle the manager resolves to a typed
    registrar first turns the handle into that registrar and then registers:
    the run returns, and in the registry it leaves, calls into the plugin's
    method channel on that registrar are dispatched to the plugin's handler. *)
Theorem shim_wires_handler {M Own : Type} (ops : manager_ops M)
    (registrar : FlutterDesktopPluginRegistrarRef) (m : M)
    (reg : gmap positive registrar_entry) (s : Own) (a : positive) (m' : M) :
  resolves_to ops registrar m a m' ->
  exists manager reg',
    trace (system ops) (FlutterMcpCommonPluginCApiRegisterWithRegistrar registrar)
          (m, reg) s =
    [GetInstance; GetRegistrar manager registrar; RegisterWithRegistrar (addr a)] /\
    result (system ops) (FlutterMcpCommonPluginCApiRegisterWithRegistrar registrar)
           (m, reg) s = Done (tt, (m', reg'), s) /\
    dispatch reg' a channel_name = Some HandleMethodCall.
Proof.
  intros Hres.
  destruct (system_run_resolved ops registrar m reg s a m' Hres)
    as (manager & reg' & Hrun & Hd).
  exists manager, reg'. unfold trace, result. rewrite Hrun. auto.
Qed.

Lemma shim_wires_handler_witness :
  exists manager reg',
    trace sample_host
      (FlutterMcpCommonPluginCApiRegisterWithRegistrar (addr 7%positive))
      (sample_empty, {[1%positive := {| handlers := {[channel_name := foreign_handler 9]};
                                        plugins := [] |}]}) tt =
    [GetInstance; GetRegistrar manager (addr 7%positive);
     RegisterWithRegistrar (addr 1%positive)] /\
    result sample_host
      (FlutterMcpCommonPluginCApiRegisterWithRegistrar (addr 7%positive))
      (sample_empty, {[1%positive := {| handlers := {[channel_name := foreign_handler 9]};
                                        plugins := [] |}]}) tt =
    Done (tt, (sample_registered, reg'), tt) /\
    dispatch reg' 1%positive channel_name = Some HandleMethodCall.
Proof.
  apply (shim_wires_handler sample_ops (addr 7%positive) sample_empty).
  exists (addr 1%positive), sample_empty. split; [reflexivity |].
  vm_compute. reflexivity.
Defined.

(** C4.  Called with a non-null registrar, the registration entry point
    neither throws nor aborts: it returns, in every registry. *)
Theorem RegisterWithRegistrar_does_not_fail
    (registrar : ptr PluginRegistrarWindows) (reg : gmap positive registrar_entry) :
  registrar <> nullptr ->
  is_Some (RegisterWithRegistrar_body registrar reg).
Proof.
  intros Hnn. destruct registrar as [| a]; [congruence |].
  destruct (RegisterWithRegistrar_body_addr a reg) as (reg' & Hreg & _).
  rewrite Hreg. eauto.
Qed.

Lemma RegisterWithRegistrar_does_not_fail_witness :
  is_Some (RegisterWithRegistrar_body (addr 4%positive) ∅).
Proof.
  apply (RegisterWithRegistrar_does_not_fail (addr 4%positive) ∅).
  discriminate.
Defined.

(** C5.  For a handle that is valid, that is, one the manager resolves to a
    typed registrar in every state in which the handle is valid, and that
    stays valid once resolved: any number of invocations of the shim in a row
    with that handle return; none of them fails. *)
Theorem repeated_invocation_does_not_crash {M Own : Type} (ops : manager_ops M)
    (registrar : FlutterDesktopPluginRegistrarRef) (valid : M -> Prop) :
  (forall m, valid m -> exists a m', resolves_to ops registrar m a m' /\ valid m') ->
  forall (n : nat) (m : M) (reg : gmap positive registrar_entry) (s : Own),
    valid m ->
    crashed (invoke_repeatedly (system ops) n registrar (m, reg) s) = false.
Proof.
  intros Hvalid n. induction n as [| n IH]; intros m reg s Hm.
  - reflexivity.
  - destruct (Hvalid m Hm) as (a & m' & Hres & Hm').
    destruct (system_run_resolved ops registrar m reg s a m' Hres)
      as (manager & reg' & Hrun & _).
    cbn [invoke_repeatedly]. unfold result. rewrite Hrun. cbn [snd].
    apply IH. exact Hm'.
Qed.

Lemma repeated_invocation_does_not_crash_witness :
  crashed (invoke_repeatedly sample_host 3 (addr 7%positive) sample_world tt) = false.
Proof.
  apply (repeated_invocation_does_not_crash sample_ops (addr 7%positive)
           (fun m => m = sample_empty \/ m = sample_registered)).
  - intros m [-> | ->]; exists 1%positive, sample_registered.
    + split; [| right; reflexivity].
      exists (addr 1%positive), sample_empty. split; [reflexivity |].
      vm_compute. reflexivity.
    + split; [| right; reflexivity].
      exists (addr 1%positive), sample_registered. split; reflexivity.
  - left. reflexivity.
Defined.

(** ** The class *)

(** C6.  The copy constructor and the copy-assignment operator of
    [FlutterMcpCommonPlugin] are declared deleted, so the compiler accepts
    neither copy construction nor copy assignment of a plugin instance. *)
Theorem plugin_not_copyable :
  m_form <$> lookup_member CopyConstructor FlutterMcpCommonPlugin_class = Some Deleted /\
  m_form <$> lookup_member CopyAssignment FlutterMcpCommonPlugin_class = Some Deleted /\
  copy_constructible FlutterMcpCommonPlugin_class = false /\
  copy_assignable FlutterMcpCommonPlugin_class = false.
Proof. repeat split; reflexivity. Qed.

(** Without the two deleted declarations both copies would be accepted. *)
Example copyable_variant_copies :
  copy_constructible copyable_variant = true /\
  copy_assignable copyable_variant = true.
Proof. split; reflexivity. Qed.

(** C7.  The class declares no data member, so an instance has a single
    possible state: whatever an operation of the class does, the instance
    state it leaves is the one it found, and every property of the instance
    state that held before holds after. *)
Theorem plugin_is_stateless :
  data_members FlutterMcpCommonPlugin_class = [] /\
  (forall p q : FlutterMcpCommonPlugin, p = q) /\
  (forall (A B : Type) (op : FlutterMcpCommonPlugin -> A -> FlutterMcpCommonPlugin * B)
          (Inv : FlutterMcpCommonPlugin -> Prop) (p : FlutterMcpCommonPlugin) (a : A),
     (op p a).1 = p /\ (Inv p -> Inv (op p a).1)).
Proof.
  split; [reflexivity |].
  assert (forall p q : FlutterMcpCommonPlugin, p = q) as Hone.
  { intros [] []. reflexivity. }
  split; [exact Hone |].
  intros A B op Inv p a. rewrite (Hone (op p a).1 p). auto.
Qed.

(** ** Further properties of the shim *)

(** X1.  Whether and with what [RegisterWithRegistrar] is called is decided
    by the manager alone: it is called once with the typed registrar when the
    manager returns one for the handle, and not at all when the manager
    lookup or the resolution of the handle fails. *)
Theorem shim_registration_follows_resolution {W Own : Type} (host : handler W)
    (registrar : FlutterDesktopPluginRegistrarRef) (w : W) (s : Own) :
  registered_with
    (trace host (FlutterMcpCommonPluginCApiRegisterWithRegistrar registrar) w s) =
  match resolve host registrar w with
  | Some (_, Some typed_registrar) => [typed_registrar]
  | _ => []
  end.
Proof.
  unfold trace, resolve. rewrite run_shim.
  destruct (host GetInstance w) as [[manager w1] |]; [| reflexivity].
  destruct (host (GetRegistrar manager registrar) w1) as [[r w2] |]; [| reflexivity].
  destruct (host (RegisterWithRegistrar r) w2) as [[u w3] |]; reflexivity.
Qed.

(** X2.  The calls of the shim follow one fixed order and stop at the first
    that fails, and only there: the manager lookup always comes first; the
    resolution follows exactly when the lookup returned, the registration
    exactly when the resolution returned; and a run that makes fewer than the
    three calls ends with the failure of the last call it made.  The only
    handle the shim ever asks a manager to resolve is its own argument, and
    the only manager it asks is the one the lookup returned. *)
Theorem shim_call_discipline {W Own : Type} (host : handler W)
    (registrar : FlutterDesktopPluginRegistrarRef) (w : W) (s : Own) :
  let t := trace host (FlutterMcpCommonPluginCApiRegisterWithRegistrar registrar) w s in
  let o := result host (FlutterMcpCommonPluginCApiRegisterWithRegistrar registrar) w s in
  head t = Some GetInstance /\
  t = match host GetInstance w with
      | None => [GetInstance]
      | Some (manager, w1) =>
          match host (GetRegistrar manager registrar) w1 with
          | None => [GetInstance; GetRegistrar manager registrar]
          | Some (typed_registrar, _) =>
              [GetInstance; GetRegistrar manager registrar;
               RegisterWithRegistrar typed_registrar]
          end
      end /\
  (length t = 3%nat \/
   exists c, last t = Some c /\ o = CalleeFailed c /\ exists w', host c w' = None) /\
  (exists manager typed_registrar,
     t `prefix_of` [GetInstance; GetRegistrar manager registrar;
                    RegisterWithRegistrar typed_registrar]) /\
  (forall self h, GetRegistrar self h ∈ t ->
     h = registrar /\ exists w1, host GetInstance w = Some (self, w1)).
Proof.
  cbn zeta.
  split; [| split; [apply trace_shim |]].
  { rewrite trace_shim.
    destruct (host GetInstance w) as [[manager w1] |]; [| reflexivity].
    destruct (host (GetRegistrar manager registrar) w1) as [[r w2] |]; reflexivity. }
  split.
  { unfold trace, result. rewrite run_shim.
    destruct (host GetInstance w) as [[manager w1] |] eqn:Hm.
    - destruct (host (GetRegistrar manager registrar) w1) as [[r w2] |] eqn:Hr.
      + left. destruct (host (RegisterWithRegistrar r) w2) as [[u w3] |]; reflexivity.
      + right. eexists. split; [reflexivity |]. split; [reflexivity |].
        exists w1. exact Hr.
    - right. eexists. split; [reflexivity |]. split; [reflexivity |].
      exists w. exact Hm. }
  rewrite trace_shim.
  destruct (host GetInstance w) as [[manager w1] |] eqn:Hm.
  - assert (forall (r : ptr PluginRegistrarWindows) self h,
              GetRegistrar self h ∈
                [GetInstance; GetRegistrar manager registrar; RegisterWithRegistrar r] ->
              h = registrar /\ exists w1', Some (manager, w1) = Some (self, w1'))
      as Hin.
    { intros r self h Hel. rewrite !elem_of_cons in Hel.
      destruct Hel as [Hel | [Hel | [Hel | Hel]]]; try discriminate Hel.
      - injection Hel as -> ->. split; [reflexivity | eauto].
      - inversion Hel. }
    destruct (host (GetRegistrar manager registrar) w1) as [[r w2] |].
    + split; [exists manager, r; reflexivity | apply Hin].
    + split.
      * exists manager, nullptr. exists [RegisterWithRegistrar nullptr]. reflexivity.
      * intros self h Hel. apply (Hin nullptr).
        rewrite !elem_of_cons in Hel |- *. destruct Hel as [Hel | [Hel | Hel]]; auto.
        inversion Hel.
  - split.
    + exists nullptr, nullptr. eexists. reflexivity.
    + intros self h Hel. rewrite elem_of_cons in Hel.
      destruct Hel as [Hel | Hel]; [discriminate Hel | inversion Hel].
Qed.

(** X3.  A return of the shim certifies the registration: when the shim
    returns, the manager lookup, the resolution of the handle and the call of
    [RegisterWithRegistrar] on the resolved registrar have all returned, the
    world is the one that call left, and the shim's own state is untouched. *)
Theorem shim_return_certifies_registration {W Own : Type} (host : handler W)
    (registrar : FlutterDesktopPluginRegistrarRef) (w : W) (s : Own)
    (v : unit) (w' : W) (s' : Own) :
  result host (FlutterMcpCommonPluginCApiRegisterWithRegistrar registrar) w s
    = Done (v, w', s') ->
  exists manager w1 typed_registrar w2,
    host GetInstance w = Some (manager, w1) /\
    host (GetRegistrar manager registrar) w1 = Some (typed_registrar, w2) /\
    host (RegisterWithRegistrar typed_registrar) w2 = Some (tt, w') /\
    s' = s.
Proof.
  unfold result. rewrite run_shim.
  destruct (host GetInstance w) as [[manager w1] |]; [| discriminate].
  destruct (host (GetRegistrar manager registrar) w1) as [[r w2] |] eqn:Hr;
    [| discriminate].
  destruct (host (RegisterWithRegistrar r) w2) as [[[] w3] |] eqn:Hreg;
    [| discriminate].
  cbn [snd]. intros Hd. injection Hd as <- <-.
  exists manager, w1, r, w2. auto.
Qed.

Lemma shim_return_certifies_registration_witness :
  exists manager w1 typed_registrar w2 w',
    sample_host GetInstance sample_world = Some (manager, w1) /\
    sample_host (GetRegistrar manager (addr 7%positive)) w1 = Some (typed_registrar, w2) /\
    sample_host (RegisterWithRegistrar typed_registrar) w2 = Some (tt, w') /\
    tt = tt.
Proof.
  destruct (shim_return_certifies_registration sample_host (addr 7%positive)
              sample_world tt tt
              (sample_registered,
               {[1%positive := {| handlers := {[channel_name := HandleMethodCall]};
                                  plugins := [tt] |}]})
              tt)
    as (manager & w1 & r & w2 & H1 & H2 & H3 & H4).
  - vm_compute. reflexivity.
  - exists manager, w1, r, w2. eexists. split; [exact H1 |].
    split; [exact H2 |]. split; [exact H3 | exact H4].
Defined.
